(** * repro.py: the two-document field-limit reproduction script

    A shallow embedding of [src/repro.py].  The script builds two Python
    dictionaries, posts each one as a one-element JSON batch through
    [requests.post], and prints a confirmation line after each call.

    - [Py]    : the Python values and builtins the script relies on
                (integers, text, [str], [range], insertion-ordered [dict]);
    - [Json]  : the encoding [requests] applies to its [json=] argument;
    - [World] : calls to [requests.post] and [print] as an event trace,
                threaded through a state-and-exception monad;
    - [Wire]  : what [requests.post] makes of the server's answers
                (redirects followed, body read) before it returns or raises;
    - [Repro] : the script itself, followed by its properties. *)

From Stdlib Require Import ZArith List String Ascii Bool Lia FinFun.
From Stdlib Require Import DecimalString DecimalZ.
Import ListNotations.

Local Open Scope string_scope.
Local Open Scope Z_scope.

(* ------------------------------------------------------------------ *)
(** ** Python values and builtins *)

Module Py.

(** The script stores integers and text in its dictionaries. *)
Inductive value : Type :=
| VInt (z : Z)
| VStr (s : string).

Definition is_int (v : value) : bool :=
  match v with VInt _ => true | VStr _ => false end.

Definition is_str (v : value) : bool :=
  match v with VInt _ => false | VStr _ => true end.

(** [str(i)] on an integer: its decimal numeral, with a leading minus sign
    for a negative one.  This is what the replacement field [{i}] of an
    f-string inserts. *)
Definition str (i : Z) : string :=
  NilEmpty.string_of_int (Z.to_int i).

(** [range(n)]: the integers [0, 1, ..., n-1]; empty when [n <= 0]. *)
Definition range (n : Z) : list Z :=
  map Z.of_nat (seq 0 (Z.to_nat n)).

(** A [dict] keeps its entries in insertion order. *)
Definition dict : Type := list (string * value).

Definition empty : dict := [].

(** [d[k]], as an option: [None] stands for [KeyError]. *)
Fixpoint get (d : dict) (k : string) : option value :=
  match d with
  | [] => None
  | (k', v') :: d' => if String.eqb k' k then Some v' else get d' k
  end.

(** [d[k] = v]: an existing key keeps its position and takes the new value,
    a new key goes to the end. *)
Fixpoint set (d : dict) (k : string) (v : value) : dict :=
  match d with
  | [] => [(k, v)]
  | (k', v') :: d' =>
      if String.eqb k' k then (k', v) :: d' else (k', v') :: set d' k v
  end.

Definition keys (d : dict) : list string := map fst d.

(** [k in d] *)
Definition contains (d : dict) (k : string) : bool :=
  match get d k with Some _ => true | None => false end.

End Py.

(* ------------------------------------------------------------------ *)
(** ** JSON encoding of the request body

    [requests.post(..., json=obj)] sends [json.dumps(obj)] with the default
    separators and [ensure_ascii=True]. *)

Module Json.

#[local] Unset Elimination Schemes.
Inductive t : Type :=
| JNumber (z : Z)
| JString (s : string)
| JArray (elems : list t)
| JObject (members : list (string * t)).
#[local] Set Elimination Schemes.

Definition of_value (v : Py.value) : t :=
  match v with
  | Py.VInt z => JNumber z
  | Py.VStr s => JString s
  end.

Definition of_dict (d : Py.dict) : t :=
  JObject (map (fun kv => (fst kv, of_value (snd kv))) d).

(** A Python list of dictionaries. *)
Definition of_batch (b : list Py.dict) : t :=
  JArray (map of_dict b).

Definition hex_digit (n : nat) : ascii :=
  nth n
    ["0"; "1"; "2"; "3"; "4"; "5"; "6"; "7";
     "8"; "9"; "a"; "b"; "c"; "d"; "e"; "f"]%char "0"%char.

Definition dquote : ascii := "034"%char.
Definition backslash : ascii := "092"%char.

(** Escape of one character inside a JSON string: the short escapes for the
    double quote, the backslash and the five named control characters, the
    printable ASCII range (space to tilde) left as it is, and anything else
    as a four-digit hexadecimal escape. *)
Definition escape_char (c : ascii) : string :=
  let n := nat_of_ascii c in
  if Nat.eqb n 34 then String backslash (String dquote EmptyString)
  else if Nat.eqb n 92 then String backslash (String backslash EmptyString)
  else if Nat.eqb n 8 then String backslash "b"
  else if Nat.eqb n 12 then String backslash "f"
  else if Nat.eqb n 10 then String backslash "n"
  else if Nat.eqb n 13 then String backslash "r"
  else if Nat.eqb n 9 then String backslash "t"
  else if (Nat.leb 32 n && Nat.leb n 126)%bool then String c EmptyString
  else String backslash "u00"
         ++ String (hex_digit (Nat.div n 16))
              (String (hex_digit (Nat.modulo n 16)) EmptyString).

Fixpoint escape (s : string) : string :=
  match s with
  | EmptyString => EmptyString
  | String c s' => escape_char c ++ escape s'
  end.

Definition quote (s : string) : string :=
  String dquote (escape s ++ String dquote EmptyString).

Fixpoint dumps (j : t) : string :=
  match j with
  | JNumber z => Py.str z
  | JString s => quote s
  | JArray elems => "[" ++ String.concat ", " (map dumps elems) ++ "]"
  | JObject members =>
      "{" ++ String.concat ", "
               (map (fun kv => quote (fst kv) ++ ": " ++ dumps (snd kv)) members)
          ++ "}"
  end.

(** Characters [escape_char] leaves as they are. *)
Definition is_plain (c : ascii) : bool :=
  let n := nat_of_ascii c in
  (Nat.leb 32 n && Nat.leb n 126 && negb (Nat.eqb n 34) && negb (Nat.eqb n 92))%bool.

Fixpoint all_plain (s : string) : bool :=
  match s with
  | EmptyString => true
  | String c s' => (is_plain c && all_plain s')%bool
  end.

End Json.

(* ------------------------------------------------------------------ *)
(** ** The outside world: the HTTP transport and standard output *)

Module World.

Inductive http_method : Type := POST.

(** What the script hands to [requests.post]: the URL, the [headers=]
    dictionary and the [json=] list of documents. *)
Record request : Type := {
  method : http_method;
  url : string;
  headers : list (string * string);
  json : list Py.dict
}.

(** The bytes on the wire for the [json=] argument. *)
Definition body (rq : request) : string :=
  Json.dumps (Json.of_batch (json rq)).

Record response : Type := {
  status_code : Z;
  text : string
}.

(** The exceptions [requests.post] raises: the first three when no answer
    comes back from the network, the last three when the library gives up on
    the answers it did get (see [Wire.send]). *)
Inductive fault : Type :=
| ConnectionRefused
| TimedOut
| NameResolutionFailure
| TooManyRedirects
| ChunkedEncodingError
| ContentDecodingError.

(** How a call to [requests.post] ends: it returns the [Response] object it
    built, whatever the status, or it raises.  [Responded r] is a call that
    returned [r]; a call whose HTTP answer makes the library raise is a
    [Faulted] call, like one that got no answer at all. *)
Inductive outcome : Type :=
| Responded (r : response)
| Faulted (e : fault).

(** The world as seen from the script: how the [k]-th call to
    [requests.post] (counting from 0) ends, given the request made.
    [Wire.transport_of] derives it from what the server sends. *)
Definition transport : Type := nat -> request -> outcome.

(** Observable events, in the order they happen. *)
Inductive event : Type :=
| Post (rq : request)
| Print (line : string).

Definition trace : Type := list event.

(** The requests issued, oldest first. *)
Fixpoint posts (tr : trace) : list request :=
  match tr with
  | [] => []
  | Post rq :: tr' => rq :: posts tr'
  | Print _ :: tr' => posts tr'
  end.

(** The arguments of the [print] calls, oldest first. *)
Fixpoint printed (tr : trace) : list string :=
  match tr with
  | [] => []
  | Post _ :: tr' => printed tr'
  | Print s :: tr' => s :: printed tr'
  end.

Definition newline : string := String "010"%char EmptyString.

(** The text on standard output: [print] ends each line with a newline. *)
Definition stdout (tr : trace) : string :=
  String.concat EmptyString (map (fun s => s ++ newline) (printed tr)).

(** The trace is a sequence of pairs, a [Post] and then a [Print]: every
    request is immediately followed by exactly one printed line, and nothing
    is printed otherwise. *)
Fixpoint post_print_pairs (tr : trace) : bool :=
  match tr with
  | [] => true
  | Post _ :: Print _ :: tr' => post_print_pairs tr'
  | _ => false
  end.

(** A computation either returns or raises; an exception is unhandled unless
    some enclosing code catches it, and the script has no [try]. *)
Inductive result (A : Type) : Type :=
| Returned (a : A)
| Raised (e : fault).

Arguments Returned {A} a.
Arguments Raised {A} e.

Definition io (A : Type) : Type :=
  transport -> trace -> result A * trace.

Definition ret {A : Type} (a : A) : io A :=
  fun _ tr => (Returned a, tr).

(** Sequencing: a raised exception skips the rest. *)
Definition bind {A B : Type} (c : io A) (k : A -> io B) : io B :=
  fun net tr =>
    match c net tr with
    | (Returned a, tr') => k a net tr'
    | (Raised e, tr') => (Raised e, tr')
    end.

(** [requests.post(url, headers=h, json=j)]: the call is logged and ends the
    way the transport says.  The script gets the response the library
    returned, and looks neither at its status nor at anything else of it, or
    it gets the exception the library raised. *)
Definition requests_post (u : string) (h : list (string * string))
    (j : list Py.dict) : io response :=
  fun net tr =>
    let rq := {| method := POST; url := u; headers := h; json := j |} in
    match net (List.length (posts tr)) rq with
    | Responded r => (Returned r, (tr ++ [Post rq])%list)
    | Faulted e => (Raised e, (tr ++ [Post rq])%list)
    end.

(** [print(s)] *)
Definition print (s : string) : io unit :=
  fun _ tr => (Returned tt, (tr ++ [Print s])%list).

Module IONotations.
Notation "x <- c ;; k" := (bind c (fun x => k))
  (at level 61, c at next level, right associativity).
Notation "c ;; k" := (bind c (fun _ => k))
  (at level 61, right associativity).
End IONotations.

(** The transport as seen after [k] calls were already made. *)
Definition shifted (k : nat) (net : transport) : transport :=
  fun j rq => net (j + k)%nat rq.

(** Every call to [requests.post] returns a response. *)
Definition always_responds (net : transport) : Prop :=
  forall k rq, exists r, net k rq = Responded r.

(** Two transports that differ at most in the responses returned: a call
    that returns under one returns under the other, with any status and
    body, and a call that raises under one raises the same exception under
    the other. *)
Definition differ_only_in_responses (net1 net2 : transport) : Prop :=
  forall k rq,
    match net1 k rq, net2 k rq with
    | Responded _, Responded _ => True
    | Faulted e1, Faulted e2 => e1 = e2
    | _, _ => False
    end.

End World.

(* ------------------------------------------------------------------ *)
(** ** From the server's answers to the end of a call

    [requests.post] runs [Session.send] with its defaults,
    [allow_redirects=True] and [stream=False]: an answer that is a redirect
    is followed, at most [DEFAULT_REDIRECT_LIMIT] times, and the body of the
    answer finally kept is read before the call returns. *)

Module Wire.

Import World.

(** How the body of an answer arrives. *)
Inductive delivery : Type :=
| Intact
| BrokenChunks
| BadEncoding.

(** An HTTP answer: the status, the [Location] header if there is one, the
    body and how it arrives. *)
Record answer : Type := {
  status : Z;
  location : option string;
  content : string;
  arrival : delivery
}.

(** No answer at all. *)
Inductive failure : Type :=
| Refused
| NoReply
| UnknownHost.

Definition raised_for (f : failure) : fault :=
  match f with
  | Refused => ConnectionRefused
  | NoReply => TimedOut
  | UnknownHost => NameResolutionFailure
  end.

Inductive exchange : Type :=
| Answered (a : answer)
| Failed (f : failure).

(** What comes back in the course of one call: hop 0 is the POST itself,
    hop [h + 1] the request sent after following the redirect of hop [h]. *)
Definition hops : Type := nat -> exchange.

(** The server side: the hops of the [k]-th call, given the request made. *)
Definition endpoint : Type := nat -> request -> hops.

Definition REDIRECT_STATI : list Z := [301; 302; 303; 307; 308].

Definition DEFAULT_REDIRECT_LIMIT : nat := 30.

(** [Response.is_redirect]: a [Location] header and a redirect status. *)
Definition is_redirect (a : answer) : bool :=
  match location a with
  | Some _ => existsb (Z.eqb (status a)) REDIRECT_STATI
  | None => false
  end.

(** [get_redirect_target] *)
Definition get_redirect_target (a : answer) : option string :=
  if is_redirect a then location a else None.

(** The loop test [while url] of [resolve_redirects]: a target, and not the
    empty text. *)
Definition followed (a : answer) : bool :=
  match get_redirect_target a with
  | Some l => negb (String.eqb l EmptyString)
  | None => false
  end.

(** [r.content] on the answer kept: the call returns the response if the
    body reads, and raises otherwise. *)
Definition read_content (a : answer) : outcome :=
  match arrival a with
  | Intact => Responded {| status_code := status a; text := content a |}
  | BrokenChunks => Faulted ChunkedEncodingError
  | BadEncoding => Faulted ContentDecodingError
  end.

(** [resolve_redirects], with [left] redirects still allowed at hop [h]: a
    followed answer costs one (its body is drained, the errors of reading it
    caught), and raises when none is left; a failure of the network raises
    at any hop. *)
Fixpoint resolve_redirects (left : nat) (x : hops) (h : nat) : outcome :=
  match x h with
  | Failed f => Faulted (raised_for f)
  | Answered a =>
      if followed a then
        match left with
        | O => Faulted TooManyRedirects
        | S left' => resolve_redirects left' x (S h)
        end
      else read_content a
  end.

(** [Session.send] as [requests.post] calls it. *)
Definition send (x : hops) : outcome :=
  resolve_redirects DEFAULT_REDIRECT_LIMIT x 0.

(** The transport a server gives rise to. *)
Definition transport_of (ep : endpoint) : transport :=
  fun k rq => send (ep k rq).

(** Every request, at every hop of every call, gets an HTTP answer. *)
Definition always_answered (ep : endpoint) : Prop :=
  forall k rq h, exists a, ep k rq h = Answered a.

(** Two servers whose answers differ at most in status and body: the same
    requests are answered, with the same [Location] header and the same
    delivery, and the same requests fail, in the same way. *)
Definition differ_only_in_status_and_body (ep1 ep2 : endpoint) : Prop :=
  forall k rq h,
    match ep1 k rq h, ep2 k rq h with
    | Answered a1, Answered a2 =>
        location a1 = location a2 /\ arrival a1 = arrival a2
    | Failed f1, Failed f2 => f1 = f2
    | _, _ => False
    end.

End Wire.

(* ------------------------------------------------------------------ *)
(** ** The script *)

Module Repro.

Import World World.IONotations.

Definition HOST : string := "http://localhost:7700".

Definition HEADERS : list (string * string) :=
  [("X-Meili-API-Key", "masterKey")].

(** [doc1 = {"id": 1}] *)
Definition doc1_init : Py.dict :=
  Py.set Py.empty "id" (Py.VInt 1).

(** The loop body [doc1[f"field_{i}"] = f"value_{i}"]. *)
Definition doc1_step (doc1 : Py.dict) (i : Z) : Py.dict :=
  Py.set doc1 ("field_" ++ Py.str i) (Py.VStr ("value_" ++ Py.str i)).

(** [doc1] after [for i in range(n)]. *)
Definition doc1_loop (n : Z) : Py.dict :=
  fold_left doc1_step (Py.range n) doc1_init.

Definition doc1 : Py.dict := doc1_loop 65535.

(** [doc2 = {"id": 2, "new_unique_field": "new_value"}] *)
Definition doc2 : Py.dict :=
  Py.set (Py.set Py.empty "id" (Py.VInt 2))
    "new_unique_field" (Py.VStr "new_value").

(** The function body.  The two dictionaries are pure values, so they are
    named apart ([doc1], [doc2] above) and the effects are sequenced here in
    the order of the source: post, print, post, print. *)
Definition create_documents : io unit :=
  _ <- requests_post (HOST ++ "/indexes/test/documents") HEADERS [doc1] ;;
  print "Add one document with 65,535 unique fields" ;;
  _ <- requests_post (HOST ++ "/indexes/test/documents") HEADERS [doc2] ;;
  print "Add a second document with a new unique field".

(** Running the script: [__name__ == "__main__"] holds, so the guarded call
    runs, on an empty trace. *)
Definition main (net : transport) : result unit * trace :=
  create_documents net [].

(** Names used in the statements below. *)
Definition ENDPOINT : string := "http://localhost:7700/indexes/test/documents".

Definition field_key (i : Z) : string := "field_" ++ Py.str i.
Definition field_value (i : Z) : string := "value_" ++ Py.str i.

(** The entry the loop adds at index [i]. *)
Definition generated_entry (i : Z) : string * Py.value :=
  (field_key i, Py.VStr (field_value i)).

(** The shape of an entry: a number under ["id"], text under any other key. *)
Definition entry_typed (kv : string * Py.value) : bool :=
  if String.eqb (fst kv) "id" then Py.is_int (snd kv) else Py.is_str (snd kv).

Definition request_for (d : Py.dict) : request :=
  {| method := POST; url := ENDPOINT;
     headers := [("X-Meili-API-Key", "masterKey")]; json := [d] |}.

Definition LINE1 : string := "Add one document with 65,535 unique fields".
Definition LINE2 : string := "Add a second document with a new unique field".

(** Standard output after both [print] calls. *)
Definition TWO_LINES : string :=
  "Add one document with 65,535 unique fields" ++ newline ++
  "Add a second document with a new unique field" ++ newline.

(** The expected text of the first request body, for a loop bound [n]:
    the members in insertion order, separated by a comma and a space. *)
Definition quoted (s : string) : string :=
  String Json.dquote (s ++ String Json.dquote EmptyString).

Definition member_text (i : Z) : string :=
  quoted ("field_" ++ Py.str i) ++ ": " ++ quoted ("value_" ++ Py.str i).

Definition doc1_body_text (n : Z) : string :=
  "[" ++ ("{" ++ String.concat ", "
                   ((quoted "id" ++ ": 1") :: map member_text (Py.range n))
              ++ "}") ++ "]".

(** An entry whose key and text need no escaping. *)
Definition plain_entry (kv : string * Py.value) : bool :=
  (Json.all_plain (fst kv) &&
   match snd kv with
   | Py.VInt _ => true
   | Py.VStr s => Json.all_plain s
   end)%bool.

(** The text of a member written verbatim between quotes. *)
Definition entry_text (kv : string * Py.value) : string :=
  quoted (fst kv) ++ ": " ++
  match snd kv with
  | Py.VInt z => Py.str z
  | Py.VStr s => quoted s
  end.

End Repro.

(* ------------------------------------------------------------------ *)
(** ** Mock transports (how the calls end) and servers (what is answered) *)

Module Mock.

Import World.

Definition reply (status : Z) : outcome :=
  Responded {| status_code := status; text := EmptyString |}.

(** Accepts every call with 202. *)
Definition accepting : transport := fun _ _ => reply 202.

(** Answers the first call with 500 and the following ones with 202. *)
Definition failing_then_accepting : transport :=
  fun k _ => match k with O => reply 500 | S _ => reply 202 end.

(** Answers every call with 400. *)
Definition rejecting : transport := fun _ _ => reply 400.

(** Refuses every connection. *)
Definition unreachable : transport := fun _ _ => Faulted ConnectionRefused.

(** Answers the first call with 400, then times out. *)
Definition rejecting_then_timing_out : transport :=
  fun k _ => match k with O => reply 400 | S _ => Faulted TimedOut end.

(** Answers the first two calls with 202 and refuses any later one. *)
Definition accepting_twice : transport :=
  fun k _ =>
    match k with
    | O | S O => reply 202
    | S (S _) => Faulted ConnectionRefused
    end.

(** Servers.  Every answer has an empty body. *)
Definition answer_with (st : Z) (loc : option string) (how : Wire.delivery)
    : Wire.answer :=
  {| Wire.status := st; Wire.location := loc;
     Wire.content := EmptyString; Wire.arrival := how |}.

(** Answers the POST of call [k] with status [st k], no [Location] header,
    the body intact. *)
Definition server (st : nat -> Z) : Wire.endpoint :=
  fun k _ _ => Wire.Answered (answer_with (st k) None Wire.Intact).

(** Answers every request with status [st] and a [Location] header naming
    the endpoint itself, the body intact. *)
Definition server_with_location (st : Z) : Wire.endpoint :=
  fun _ _ _ =>
    Wire.Answered
      (answer_with st (Some "http://localhost:7700/indexes/test/documents")
         Wire.Intact).

(** Redirects the POST once with 307, then answers 200. *)
Definition server_redirecting_once : Wire.endpoint :=
  fun _ _ h =>
    match h with
    | O => Wire.Answered
             (answer_with 307 (Some "http://localhost:7700/moved") Wire.Intact)
    | S _ => Wire.Answered (answer_with 200 None Wire.Intact)
    end.

(** Redirects the first [n] requests of a call with 302, then answers 200. *)
Definition server_redirecting (n : nat) : Wire.endpoint :=
  fun _ _ h =>
    if Nat.ltb h n
    then Wire.Answered
           (answer_with 302 (Some "http://localhost:7700/moved") Wire.Intact)
    else Wire.Answered (answer_with 200 None Wire.Intact).

(** Answers 200 with a chunked body that breaks off. *)
Definition server_breaking_off : Wire.endpoint :=
  fun _ _ _ => Wire.Answered (answer_with 200 None Wire.BrokenChunks).

(** Refuses every connection. *)
Definition server_down : Wire.endpoint :=
  fun _ _ _ => Wire.Failed Wire.Refused.

End Mock.

(* ------------------------------------------------------------------ *)
(** * Properties *)

(** ** Integers as text *)

Section StrFacts.

Lemma str_inj (i j : Z) : Py.str i = Py.str j -> i = j.
Proof.
  unfold Py.str. intros H.
  apply DecimalZ.to_int_inj.
  assert (E : Some (Z.to_int i) = Some (Z.to_int j)).
  { rewrite <- (NilEmpty.isi (Z.to_int i)), <- (NilEmpty.isi (Z.to_int j)).
    now rewrite H. }
  now injection E.
Qed.

Lemma append_inv_head (p s t : string) : p ++ s = p ++ t -> s = t.
Proof.
  induction p as [|c p IH]; simpl; intros H.
  - exact H.
  - injection H as H. now apply IH.
Qed.

Lemma field_key_inj (i j : Z) :
  Repro.field_key i = Repro.field_key j -> i = j.
Proof.
  unfold Repro.field_key. intros H.
  apply str_inj. exact (append_inv_head _ _ _ H).
Qed.

Lemma id_not_field_key (i : Z) : "id" <> Repro.field_key i.
Proof. unfold Repro.field_key. simpl. discriminate. Qed.

End StrFacts.

(** ** Ranges *)

Section RangeFacts.

Lemma range_succ (n : Z) :
  0 <= n -> Py.range (n + 1) = (Py.range n ++ [n])%list.
Proof.
  intros Hn. unfold Py.range.
  replace (Z.to_nat (n + 1)) with (S (Z.to_nat n)) by lia.
  rewrite seq_S, map_app. simpl.
  now rewrite Z2Nat.id.
Qed.

Lemma range_nonpos (n : Z) : n <= 0 -> Py.range n = [].
Proof.
  intros Hn. unfold Py.range.
  now replace (Z.to_nat n) with 0%nat by lia.
Qed.

Lemma range_length (n : Z) : 0 <= n -> Z.of_nat (List.length (Py.range n)) = n.
Proof.
  intros Hn. unfold Py.range.
  rewrite length_map, length_seq. lia.
Qed.

Lemma in_range (n i : Z) : In i (Py.range n) <-> 0 <= i < n.
Proof.
  unfold Py.range. rewrite in_map_iff. split.
  - intros (k & <- & Hk). apply in_seq in Hk. lia.
  - intros Hi. exists (Z.to_nat i). split; [lia|].
    apply in_seq. lia.
Qed.

Lemma range_nth (n i : Z) :
  0 <= i < n -> nth_error (Py.range n) (Z.to_nat i) = Some i.
Proof.
  intros Hi. unfold Py.range.
  rewrite nth_error_map, nth_error_seq.
  destruct (Nat.ltb_spec (Z.to_nat i) (Z.to_nat n)); [|lia].
  simpl. f_equal. lia.
Qed.

End RangeFacts.

(** ** Dictionaries *)

Section DictFacts.

Lemma get_none_iff (d : Py.dict) (k : string) :
  Py.get d k = None <-> ~ In k (Py.keys d).
Proof.
  induction d as [|[k' v'] d IH]; simpl.
  - tauto.
  - destruct (String.eqb_spec k' k) as [->|Hne].
    + split; [discriminate | intros H; exfalso; apply H; now left].
    + rewrite IH. split; [intros H [E|E]; [now apply Hne | now apply H] | tauto].
Qed.

Lemma set_fresh (d : Py.dict) (k : string) (v : Py.value) :
  Py.get d k = None -> Py.set d k v = (d ++ [(k, v)])%list.
Proof.
  induction d as [|[k' v'] d IH]; simpl; intros H.
  - reflexivity.
  - destruct (String.eqb k' k); [discriminate|].
    now rewrite IH.
Qed.

Lemma get_set_same (d : Py.dict) (k : string) (v : Py.value) :
  Py.get (Py.set d k v) k = Some v.
Proof.
  induction d as [|[k' v'] d IH]; simpl.
  - now rewrite String.eqb_refl.
  - destruct (String.eqb k' k) eqn:E; simpl; rewrite E; [reflexivity | exact IH].
Qed.

Lemma get_in_nodup (d : Py.dict) (k : string) (v : Py.value) :
  NoDup (Py.keys d) -> In (k, v) d -> Py.get d k = Some v.
Proof.
  induction d as [|[k' v'] d IH]; simpl; intros Hnd Hin.
  - contradiction.
  - inversion Hnd as [|? ? Hnotin Hnd']; subst.
    destruct Hin as [E|Hin].
    + injection E as -> ->. now rewrite String.eqb_refl.
    + destruct (String.eqb_spec k' k) as [->|Hne].
      * exfalso. apply Hnotin.
        unfold Py.keys. apply in_map_iff. now exists (k, v).
      * now apply IH.
Qed.

Lemma get_some_in (d : Py.dict) (k : string) (v : Py.value) :
  Py.get d k = Some v -> In (k, v) d.
Proof.
  induction d as [|[k' v'] d IH]; simpl; [discriminate|].
  destruct (String.eqb_spec k' k) as [->|Hne].
  - intros [= ->]. now left.
  - intros H. right. now apply IH.
Qed.

End DictFacts.

(** ** The first document, for any loop bound *)

Section Doc1Loop.

Import Repro.

Lemma keys_generated (l : list Z) :
  Py.keys (map generated_entry l) = map field_key l.
Proof. unfold Py.keys. rewrite map_map. reflexivity. Qed.

Lemma field_key_fresh (l : list Z) (i : Z) :
  ~ In i l ->
  Py.get (("id", Py.VInt 1) :: map generated_entry l) (field_key i) = None.
Proof.
  intros Hi. apply get_none_iff.
  change (~ In (field_key i) ("id" :: Py.keys (map generated_entry l))).
  rewrite keys_generated. intros [E|E].
  - exact (id_not_field_key i E).
  - apply in_map_iff in E. destruct E as (j & E & Hj).
    apply field_key_inj in E. now subst j.
Qed.

Lemma doc1_loop_items (n : Z) :
  doc1_loop n = ("id", Py.VInt 1) :: map generated_entry (Py.range n).
Proof.
  unfold doc1_loop, Py.range.
  induction (Z.to_nat n) as [|m IH].
  - reflexivity.
  - rewrite seq_S, map_app, fold_left_app, IH, map_app. simpl.
    unfold doc1_step at 1.
    change (Py.VStr ("value_" ++ Py.str (Z.of_nat m)))
      with (snd (generated_entry (Z.of_nat m))).
    change ("field_" ++ Py.str (Z.of_nat m))
      with (fst (generated_entry (Z.of_nat m))).
    rewrite set_fresh.
    + now destruct (generated_entry (Z.of_nat m)).
    + apply field_key_fresh.
      rewrite in_map_iff. intros (k & E & Hk).
      apply in_seq in Hk. lia.
Qed.

Example doc1_loop_3 :
  doc1_loop 3 =
    [("id", Py.VInt 1); ("field_0", Py.VStr "value_0");
     ("field_1", Py.VStr "value_1"); ("field_2", Py.VStr "value_2")].
Proof. reflexivity. Qed.

Example doc1_loop_negative : doc1_loop (-4) = [("id", Py.VInt 1)].
Proof. reflexivity. Qed.

Example set_existing_key :
  Py.set (doc1_loop 2) "field_0" (Py.VStr "again") =
    [("id", Py.VInt 1); ("field_0", Py.VStr "again");
     ("field_1", Py.VStr "value_1")].
Proof. reflexivity. Qed.

End Doc1Loop.

(** ** Running the script against any transport *)

Section Run.

Import World Repro.

Lemma url_is_endpoint : (HOST ++ "/indexes/test/documents")%string = ENDPOINT.
Proof. reflexivity. Qed.

(** The three ways a run can go, by what the transport does with the two
    calls. *)
Lemma main_cases (net : transport) :
  match net 0%nat (request_for doc1) with
  | Faulted e =>
      main net = (Raised e, [Post (request_for doc1)])
  | Responded _ =>
      match net 1%nat (request_for doc2) with
      | Faulted e =>
          main net =
            (Raised e,
             [Post (request_for doc1); Print LINE1; Post (request_for doc2)])
      | Responded _ =>
          main net =
            (Returned tt,
             [Post (request_for doc1); Print LINE1;
              Post (request_for doc2); Print LINE2])
      end
  end.
Proof.
  unfold main, create_documents, request_for.
  rewrite url_is_endpoint.
  change HEADERS with [("X-Meili-API-Key", "masterKey")].
  generalize doc1 as d1, doc2 as d2. intros d1 d2.
  cbv [bind requests_post print posts app List.length].
  destruct (net 0%nat _) as [r1|e1]; [|reflexivity].
  destruct (net 1%nat _) as [r2|e2]; reflexivity.
Qed.

Lemma main_first_faults (net : transport) (e : fault) :
  net 0%nat (request_for doc1) = Faulted e ->
  main net = (Raised e, [Post (request_for doc1)]).
Proof. intros H. pose proof (main_cases net) as C. now rewrite H in C. Qed.

Lemma main_second_faults (net : transport) (r : response) (e : fault) :
  net 0%nat (request_for doc1) = Responded r ->
  net 1%nat (request_for doc2) = Faulted e ->
  main net =
    (Raised e, [Post (request_for doc1); Print LINE1; Post (request_for doc2)]).
Proof.
  intros H1 H2. pose proof (main_cases net) as C. now rewrite H1, H2 in C.
Qed.

Lemma main_both_respond (net : transport) (r1 r2 : response) :
  net 0%nat (request_for doc1) = Responded r1 ->
  net 1%nat (request_for doc2) = Responded r2 ->
  main net =
    (Returned tt,
     [Post (request_for doc1); Print LINE1;
      Post (request_for doc2); Print LINE2]).
Proof.
  intros H1 H2. pose proof (main_cases net) as C. now rewrite H1, H2 in C.
Qed.

End Run.

(** ** The two documents *)

Section Documents.

Import Repro.

Lemma range_NoDup (n : Z) : NoDup (Py.range n).
Proof.
  unfold Py.range. apply Injective_map_NoDup.
  - intros a b. apply Nat2Z.inj.
  - apply seq_NoDup.
Qed.

Lemma doc1_loop_keys_NoDup (n : Z) : NoDup (Py.keys (doc1_loop n)).
Proof.
  rewrite doc1_loop_items.
  change (NoDup ("id" :: Py.keys (map generated_entry (Py.range n)))).
  rewrite keys_generated. constructor.
  - rewrite in_map_iff. intros (i & E & _).
    exact (id_not_field_key i (eq_sym E)).
  - apply Injective_map_NoDup; [|apply range_NoDup].
    intros a b. apply field_key_inj.
Qed.

Lemma doc1_loop_length (n : Z) :
  0 <= n -> Z.of_nat (List.length (doc1_loop n)) = n + 1.
Proof.
  intros Hn. rewrite doc1_loop_items. simpl List.length.
  rewrite length_map, Nat2Z.inj_succ, range_length; lia.
Qed.

Lemma doc1_loop_in (n : Z) (k : string) (v : Py.value) :
  In (k, v) (doc1_loop n) <->
  (k = "id" /\ v = Py.VInt 1) \/
  (exists i, 0 <= i < n /\ k = field_key i /\ v = Py.VStr (field_value i)).
Proof.
  rewrite doc1_loop_items. simpl. rewrite in_map_iff. split.
  - intros [E|(i & E & Hi)].
    + left. now injection E as <- <-.
    + right. exists i. apply in_range in Hi.
      unfold generated_entry in E. now injection E as <- <-.
  - intros [[-> ->]|(i & Hi & -> & ->)].
    + now left.
    + right. exists i. split; [reflexivity | now apply in_range].
Qed.

Lemma doc1_loop_get_field (n i : Z) :
  0 <= i < n ->
  Py.get (doc1_loop n) (field_key i) = Some (Py.VStr (field_value i)).
Proof.
  intros Hi. apply get_in_nodup.
  - apply doc1_loop_keys_NoDup.
  - apply doc1_loop_in. right. now exists i.
Qed.

Lemma doc1_loop_step (n : Z) :
  0 <= n -> doc1_loop (n + 1) = doc1_step (doc1_loop n) n.
Proof.
  intros Hn. unfold doc1_loop.
  now rewrite range_succ, fold_left_app.
Qed.

Lemma doc1_loop_fresh (n : Z) :
  0 <= n -> Py.contains (doc1_loop n) (field_key n) = false.
Proof.
  intros Hn. unfold Py.contains.
  rewrite doc1_loop_items, field_key_fresh; [reflexivity|].
  rewrite in_range. lia.
Qed.

End Documents.

Section DocumentClaims.

Import Repro.

Lemma doc1_loop_get_id (n : Z) : Py.get (doc1_loop n) "id" = Some (Py.VInt 1).
Proof. rewrite doc1_loop_items. reflexivity. Qed.

Lemma field_entry_typed (i : Z) : entry_typed (generated_entry i) = true.
Proof. reflexivity. Qed.

Lemma doc1_loop_typed (n : Z) :
  Forall (fun kv => entry_typed kv = true) (doc1_loop n).
Proof.
  rewrite doc1_loop_items. constructor; [reflexivity|].
  apply Forall_forall. intros kv Hkv.
  apply in_map_iff in Hkv. destruct Hkv as (i & <- & _).
  apply field_entry_typed.
Qed.

(** C1.  The first document holds exactly 65,536 entries: ["id"] with
    value 1 and, for every [i] with [0 <= i < 65535], the key ["field_"]
    followed by the decimal of [i] with the text ["value_"] followed by the
    same decimal; every entry of the document is one of these. *)
Theorem doc1_entries :
  Z.of_nat (List.length doc1) = 65536 /\
  Py.get doc1 "id" = Some (Py.VInt 1) /\
  (forall i : Z, 0 <= i < 65535 ->
     Py.get doc1 ("field_" ++ Py.str i) = Some (Py.VStr ("value_" ++ Py.str i))) /\
  (forall (k : string) (v : Py.value), In (k, v) doc1 ->
     (k = "id" /\ v = Py.VInt 1) \/
     (exists i : Z, 0 <= i < 65535 /\
        k = "field_" ++ Py.str i /\ v = Py.VStr ("value_" ++ Py.str i))).
Proof.
  unfold doc1. split; [|split; [|split]].
  - apply (doc1_loop_length 65535). lia.
  - apply doc1_loop_get_id.
  - intros i Hi. exact (doc1_loop_get_field 65535 i Hi).
  - intros k v Hin. exact (proj1 (doc1_loop_in 65535 k v) Hin).
Qed.

(** C2.  The second document holds exactly two entries, ["id"] with value 2
    and ["new_unique_field"] with the text ["new_value"], and nothing else. *)
Theorem doc2_entries :
  doc2 = [("id", Py.VInt 2); ("new_unique_field", Py.VStr "new_value")] /\
  List.length doc2 = 2%nat /\
  Py.get doc2 "id" = Some (Py.VInt 2) /\
  Py.get doc2 "new_unique_field" = Some (Py.VStr "new_value").
Proof. repeat split. Qed.

(** C7.  Keys are unique within each document: ["id"] differs from every
    generated field name, generated names of distinct indices differ, and
    each assignment of the construction adds a key the dictionary does not
    hold yet, so none overwrites an entry. *)
Theorem keys_unique :
  NoDup (Py.keys doc1) /\
  NoDup (Py.keys doc2) /\
  (forall i : Z, "id" <> "field_" ++ Py.str i) /\
  (forall i j : Z, i <> j -> "field_" ++ Py.str i <> "field_" ++ Py.str j) /\
  Py.contains Py.empty "id" = false /\
  (forall i : Z, 0 <= i < 65535 ->
     Py.contains (doc1_loop i) ("field_" ++ Py.str i) = false /\
     doc1_loop (i + 1) = doc1_step (doc1_loop i) i) /\
  Py.contains (Py.set Py.empty "id" (Py.VInt 2)) "new_unique_field" = false.
Proof.
  split; [|split; [|split; [|split; [|split; [|split]]]]].
  - apply doc1_loop_keys_NoDup.
  - repeat constructor; simpl; intuition discriminate.
  - exact id_not_field_key.
  - intros i j Hij E. apply Hij. now apply field_key_inj.
  - reflexivity.
  - intros i Hi. split.
    + apply doc1_loop_fresh. lia.
    + apply doc1_loop_step. lia.
  - reflexivity.
Qed.

(** C8.  In both documents the value under ["id"] is a number and the value
    under every other key is text; both documents hold an ["id"] entry. *)
Theorem entries_typed :
  Forall (fun kv => entry_typed kv = true) doc1 /\
  Forall (fun kv => entry_typed kv = true) doc2 /\
  (exists n : Z, Py.get doc1 "id" = Some (Py.VInt n)) /\
  (exists n : Z, Py.get doc2 "id" = Some (Py.VInt n)).
Proof.
  split; [|split; [|split]].
  - apply doc1_loop_typed.
  - repeat constructor.
  - exists 1. apply doc1_loop_get_id.
  - exists 2. reflexivity.
Qed.

End DocumentClaims.

(** ** Requests and output of a run *)

Section RunClaims.

Import World Repro.

Lemma request_for_shape (d : Py.dict) :
  method (request_for d) = POST /\
  url (request_for d) = "http://localhost:7700/indexes/test/documents" /\
  headers (request_for d) = [("X-Meili-API-Key", "masterKey")] /\
  json (request_for d) = [d] /\
  body (request_for d) = Json.dumps (Json.JArray [Json.of_dict d]).
Proof. repeat split. Qed.

Lemma posts_of_run (net : transport) :
  posts (snd (main net)) = [request_for doc1] \/
  posts (snd (main net)) = [request_for doc1; request_for doc2].
Proof.
  pose proof (main_cases net) as C.
  destruct (net 0%nat (request_for doc1)) as [r1|e1].
  - destruct (net 1%nat (request_for doc2)) as [r2|e2];
      rewrite C; right; reflexivity.
  - rewrite C. left. reflexivity.
Qed.

(** C3.  Every request of a run is a POST to the one fixed endpoint, with
    the one fixed header, and carries a JSON array of exactly one object,
    the document of that send: the first document in the first request and
    the second document in the second. *)
Theorem requests_fixed_endpoint (net : transport) :
  (posts (snd (main net)) = [request_for doc1] \/
   posts (snd (main net)) = [request_for doc1; request_for doc2]) /\
  (forall rq : request, In rq (posts (snd (main net))) ->
     method rq = POST /\
     url rq = "http://localhost:7700/indexes/test/documents" /\
     headers rq = [("X-Meili-API-Key", "masterKey")] /\
     (exists d : Py.dict, (d = doc1 \/ d = doc2) /\
        json rq = [d] /\
        body rq = Json.dumps (Json.JArray [Json.of_dict d]))).
Proof.
  split; [apply posts_of_run|].
  intros rq Hin.
  assert (H : rq = request_for doc1 \/ rq = request_for doc2).
  { destruct (posts_of_run net) as [E|E]; rewrite E in Hin.
    - destruct Hin as [<-|[]]. now left.
    - destruct Hin as [<-|[<-|[]]]; [now left | now right]. }
  destruct H as [-> | ->].
  - destruct (request_for_shape doc1) as (Hm & Hu & Hh & Hj & Hb).
    repeat (split; [assumption|]).
    exists doc1. split; [left; reflexivity | split; assumption].
  - destruct (request_for_shape doc2) as (Hm & Hu & Hh & Hj & Hb).
    repeat (split; [assumption|]).
    exists doc2. split; [right; reflexivity | split; assumption].
Qed.

Lemma stdout_both (a b : request) :
  stdout [Post a; Print LINE1; Post b; Print LINE2] =
  ("Add one document with 65,535 unique fields" ++ newline ++
   "Add a second document with a new unique field" ++ newline)%string.
Proof. reflexivity. Qed.

Lemma pairs_both (a b : request) (l1 l2 : string) :
  post_print_pairs [Post a; Print l1; Post b; Print l2] = true.
Proof. reflexivity. Qed.

Lemma main_when_responding (net : transport) :
  always_responds net ->
  main net =
    (Returned tt,
     [Post (request_for doc1); Print LINE1;
      Post (request_for doc2); Print LINE2]).
Proof.
  intros H.
  destruct (H 0%nat (request_for doc1)) as [r1 H1].
  destruct (H 1%nat (request_for doc2)) as [r2 H2].
  exact (main_both_respond net r1 r2 H1 H2).
Qed.

(** When both calls return, the run returns, with both lines and both
    requests in order. *)
Lemma returning_calls_run (net : transport) :
  always_responds net ->
  fst (main net) = Returned tt /\
  stdout (snd (main net)) =
    ("Add one document with 65,535 unique fields" ++ newline ++
     "Add a second document with a new unique field" ++ newline)%string /\
  printed (snd (main net)) =
    ["Add one document with 65,535 unique fields";
     "Add a second document with a new unique field"] /\
  posts (snd (main net)) = [request_for doc1; request_for doc2] /\
  snd (main net) =
    [Post (request_for doc1);
     Print "Add one document with 65,535 unique fields";
     Post (request_for doc2);
     Print "Add a second document with a new unique field"] /\
  json (request_for doc1) = [doc1] /\
  json (request_for doc2) = [doc2] /\
  Z.of_nat (List.length doc1) = 65536 /\
  List.length doc2 = 2%nat.
Proof.
  intros H. rewrite (main_when_responding net H).
  split; [reflexivity|].
  split; [apply stdout_both|].
  split; [reflexivity|].
  split; [reflexivity|].
  split; [reflexivity|].
  split; [reflexivity|].
  split; [reflexivity|].
  split; [|reflexivity].
  apply (doc1_loop_length 65535). lia.
Qed.

(** Runs whose calls end alike are alike. *)
Lemma like_calls_like_runs (net1 net2 : transport) :
  differ_only_in_responses net1 net2 ->
  stdout (snd (main net1)) = stdout (snd (main net2)) /\
  main net1 = main net2 /\
  (always_responds net1 ->
     post_print_pairs (snd (main net1)) = true /\
     post_print_pairs (snd (main net2)) = true).
Proof.
  intros D.
  assert (E : main net1 = main net2).
  { pose proof (D 0%nat (request_for doc1)) as D0.
    pose proof (D 1%nat (request_for doc2)) as D1.
    pose proof (main_cases net1) as C1.
    pose proof (main_cases net2) as C2.
    destruct (net1 0%nat (request_for doc1)) as [r1|e1],
             (net2 0%nat (request_for doc1)) as [s1|f1];
      try contradiction.
    - destruct (net1 1%nat (request_for doc2)) as [r2|e2],
               (net2 1%nat (request_for doc2)) as [s2|f2];
        try contradiction.
      + now rewrite C1, C2.
      + subst f2. now rewrite C1, C2.
    - subst f1. now rewrite C1, C2. }
  split; [now rewrite E|].
  split; [exact E|].
  intros H. rewrite <- E, (main_when_responding net1 H).
  split; apply pairs_both.
Qed.

End RunClaims.

(** ** Transport faults *)

Section FaultClaims.

Import World Repro.

(** The run, by the way the two calls end. *)
Lemma run_by_call_outcomes (net : transport) :
  (forall e : fault,
     net 0%nat (request_for doc1) = Faulted e ->
     fst (main net) = Raised e /\
     posts (snd (main net)) = [request_for doc1]) /\
  (forall (r : response) (e : fault),
     net 0%nat (request_for doc1) = Responded r ->
     net 1%nat (request_for doc2) = Faulted e ->
     fst (main net) = Raised e /\
     posts (snd (main net)) = [request_for doc1; request_for doc2]) /\
  (forall r1 r2 : response,
     net 0%nat (request_for doc1) = Responded r1 ->
     net 1%nat (request_for doc2) = Responded r2 ->
     main net =
       (Returned tt,
        [Post (request_for doc1);
         Print "Add one document with 65,535 unique fields";
         Post (request_for doc2);
         Print "Add a second document with a new unique field"])).
Proof.
  split; [|split].
  - intros e H. rewrite (main_first_faults net e H). split; reflexivity.
  - intros r e H1 H2. rewrite (main_second_faults net r e H1 H2).
    split; reflexivity.
  - intros r1 r2 H1 H2. exact (main_both_respond net r1 r2 H1 H2).
Qed.

(** C10.  If the first POST faults, the run stops there: nothing is printed
    and one request is all that was issued.  If the first POST is answered
    and the second faults, exactly the first line is printed and exactly two
    requests were issued. *)
Theorem fault_stops_run (net : transport) :
  (forall e : fault,
     net 0%nat (request_for doc1) = Faulted e ->
     main net = (Raised e, [Post (request_for doc1)]) /\
     printed (snd (main net)) = [] /\
     stdout (snd (main net)) = EmptyString /\
     List.length (posts (snd (main net))) = 1%nat) /\
  (forall (r : response) (e : fault),
     net 0%nat (request_for doc1) = Responded r ->
     net 1%nat (request_for doc2) = Faulted e ->
     main net =
       (Raised e,
        [Post (request_for doc1);
         Print "Add one document with 65,535 unique fields";
         Post (request_for doc2)]) /\
     printed (snd (main net)) =
       ["Add one document with 65,535 unique fields"] /\
     stdout (snd (main net)) =
       ("Add one document with 65,535 unique fields" ++ newline)%string /\
     List.length (posts (snd (main net))) = 2%nat).
Proof.
  split.
  - intros e H. rewrite (main_first_faults net e H).
    repeat split.
  - intros r e H1 H2. rewrite (main_second_faults net r e H1 H2).
    repeat split.
Qed.

Lemma fault_stops_run_witness :
  printed (snd (main Mock.unreachable)) = [] /\
  printed (snd (main Mock.rejecting_then_timing_out)) =
    ["Add one document with 65,535 unique fields"].
Proof.
  split.
  - apply (proj1 (fault_stops_run Mock.unreachable) ConnectionRefused).
    reflexivity.
  - apply (proj2 (fault_stops_run Mock.rejecting_then_timing_out)
             {| status_code := 400; text := EmptyString |} TimedOut);
      reflexivity.
Defined.

End FaultClaims.

(** ** What the server answers, and what the run shows *)

Section WireClaims.

Import World Repro.

(** The POST itself gets no answer: the call raises for that failure. *)
Lemma send_failed (x : Wire.hops) (f : Wire.failure) :
  x 0%nat = Wire.Failed f -> Wire.send x = Faulted (Wire.raised_for f).
Proof.
  intros H. unfold Wire.send. cbn [Wire.resolve_redirects Wire.DEFAULT_REDIRECT_LIMIT].
  now rewrite H.
Qed.

(** The POST is answered by something that is not followed: the call ends
    on reading that body. *)
Lemma send_direct (x : Wire.hops) (a : Wire.answer) :
  x 0%nat = Wire.Answered a -> Wire.followed a = false ->
  Wire.send x = Wire.read_content a.
Proof.
  intros H F. unfold Wire.send.
  cbn [Wire.resolve_redirects Wire.DEFAULT_REDIRECT_LIMIT].
  now rewrite H, F.
Qed.

(** A status outside the redirect statuses is never followed. *)
Lemma other_status_not_followed (a : Wire.answer) :
  existsb (Z.eqb (Wire.status a)) Wire.REDIRECT_STATI = false ->
  Wire.followed a = false.
Proof.
  intros H. unfold Wire.followed, Wire.get_redirect_target, Wire.is_redirect.
  destruct (Wire.location a); [now rewrite H | reflexivity].
Qed.

(** An endless chain of followed answers ends in [TooManyRedirects]. *)
Lemma endless_redirects (x : Wire.hops) :
  (forall h, exists a, x h = Wire.Answered a /\ Wire.followed a = true) ->
  forall left h, Wire.resolve_redirects left x h = Faulted TooManyRedirects.
Proof.
  intros H left. induction left as [|left IH]; intros h;
    destruct (H h) as (a & Ha & Fa); cbn [Wire.resolve_redirects];
    rewrite Ha, Fa; [reflexivity | apply IH].
Qed.

Lemma server_returns (st : nat -> Z) (k : nat) (rq : request) :
  existsb (Z.eqb (st k)) Wire.REDIRECT_STATI = false ->
  Wire.transport_of (Mock.server st) k rq =
    Responded {| status_code := st k; text := EmptyString |}.
Proof.
  intros H. unfold Wire.transport_of.
  rewrite (send_direct _ (Mock.answer_with (st k) None Wire.Intact));
    reflexivity.
Qed.

Lemma location_200_returns (k : nat) (rq : request) :
  Wire.transport_of (Mock.server_with_location 200) k rq =
    Responded {| status_code := 200; text := EmptyString |}.
Proof. reflexivity. Qed.

Lemma location_302_raises (k : nat) (rq : request) :
  Wire.transport_of (Mock.server_with_location 302) k rq =
    Faulted TooManyRedirects.
Proof.
  unfold Wire.transport_of, Wire.send. apply endless_redirects.
  intros h. eexists. split; reflexivity.
Qed.

Lemma redirecting_once_returns (k : nat) (rq : request) :
  Wire.transport_of Mock.server_redirecting_once k rq =
    Responded {| status_code := 200; text := EmptyString |}.
Proof. reflexivity. Qed.

(** The limit: thirty redirects are followed, the thirty-first raises. *)
Example thirty_redirects_return (k : nat) (rq : request) :
  Wire.transport_of (Mock.server_redirecting 30) k rq =
    Responded {| status_code := 200; text := EmptyString |}.
Proof. reflexivity. Qed.

Example thirty_one_redirects_raise (k : nat) (rq : request) :
  Wire.transport_of (Mock.server_redirecting 31) k rq =
    Faulted TooManyRedirects.
Proof. reflexivity. Qed.

(** A redirect status without a [Location] header is an ordinary answer. *)
Example bare_302_returns (k : nat) (rq : request) :
  Wire.transport_of (Mock.server (fun _ => 302)) k rq =
    Responded {| status_code := 302; text := EmptyString |}.
Proof. reflexivity. Qed.

Lemma breaking_off_raises (k : nat) (rq : request) :
  Wire.transport_of Mock.server_breaking_off k rq =
    Faulted ChunkedEncodingError.
Proof. reflexivity. Qed.

Lemma down_raises (k : nat) (rq : request) :
  Wire.transport_of Mock.server_down k rq = Faulted ConnectionRefused.
Proof. reflexivity. Qed.

Lemma stdout_one (a : request) : stdout [Post a] = EmptyString.
Proof. reflexivity. Qed.

Lemma two_lines_not_empty : TWO_LINES <> EmptyString.
Proof. discriminate. Qed.

(** *** C5 *)

(** C5, as stated, fails: a server that answers every request, each time
    with a 302 naming the endpoint itself, gives a run in which every POST
    gets an HTTP answer and no transport fails, yet the first call raises
    [TooManyRedirects], nothing is printed and one request is all that is
    issued. *)
Lemma answered_run_prints_nothing :
  Wire.always_answered (Mock.server_with_location 302) /\
  main (Wire.transport_of (Mock.server_with_location 302)) =
    (Raised TooManyRedirects, [Post (request_for doc1)]) /\
  stdout (snd (main (Wire.transport_of (Mock.server_with_location 302)))) =
    EmptyString /\
  stdout (snd (main (Wire.transport_of (Mock.server_with_location 302)))) <>
    ("Add one document with 65,535 unique fields" ++ newline ++
     "Add a second document with a new unique field" ++ newline)%string.
Proof.
  pose proof (main_first_faults _ _
                (location_302_raises 0 (request_for doc1))) as E.
  split; [intros k rq h; eexists; reflexivity|].
  split; [exact E|].
  rewrite E. cbn [snd]. rewrite stdout_one.
  split; [reflexivity|].
  intros H. exact (two_lines_not_empty (eq_sym H)).
Qed.

(** C5, as amended.  When every call to [requests.post] returns a response
    (no transport fault, and nothing raised by the library on the answers:
    redirects end within the limit and the body reads), the run returns
    normally, standard output is exactly the two confirmation lines in
    order, and exactly two requests are issued in order: the batch of the
    65,536-entry document, then the batch of the 2-entry document, each
    followed by its line. *)
Theorem run_when_calls_return (ep : Wire.endpoint) :
  always_responds (Wire.transport_of ep) ->
  fst (main (Wire.transport_of ep)) = Returned tt /\
  stdout (snd (main (Wire.transport_of ep))) =
    ("Add one document with 65,535 unique fields" ++ newline ++
     "Add a second document with a new unique field" ++ newline)%string /\
  printed (snd (main (Wire.transport_of ep))) =
    ["Add one document with 65,535 unique fields";
     "Add a second document with a new unique field"] /\
  posts (snd (main (Wire.transport_of ep))) =
    [request_for doc1; request_for doc2] /\
  snd (main (Wire.transport_of ep)) =
    [Post (request_for doc1);
     Print "Add one document with 65,535 unique fields";
     Post (request_for doc2);
     Print "Add a second document with a new unique field"] /\
  json (request_for doc1) = [doc1] /\
  json (request_for doc2) = [doc2] /\
  Z.of_nat (List.length doc1) = 65536 /\
  List.length doc2 = 2%nat.
Proof. intros H. exact (returning_calls_run (Wire.transport_of ep) H). Qed.

Lemma run_when_calls_return_witness :
  always_responds (Wire.transport_of (Mock.server (fun _ => 202))) /\
  stdout (snd (main (Wire.transport_of (Mock.server (fun _ => 202))))) =
    ("Add one document with 65,535 unique fields" ++ newline ++
     "Add a second document with a new unique field" ++ newline)%string /\
  always_responds (Wire.transport_of Mock.server_redirecting_once) /\
  stdout (snd (main (Wire.transport_of Mock.server_redirecting_once))) =
    ("Add one document with 65,535 unique fields" ++ newline ++
     "Add a second document with a new unique field" ++ newline)%string.
Proof.
  assert (H1 : always_responds (Wire.transport_of (Mock.server (fun _ => 202)))).
  { intros k rq. eexists. apply (server_returns (fun _ => 202)). reflexivity. }
  assert (H2 : always_responds (Wire.transport_of Mock.server_redirecting_once)).
  { intros k rq. eexists. apply redirecting_once_returns. }
  split; [exact H1|].
  split; [exact (proj1 (proj2 (run_when_calls_return _ H1)))|].
  split; [exact H2|].
  exact (proj1 (proj2 (run_when_calls_return _ H2))).
Defined.

(** *** C4 *)

(** C4, as stated, fails: two servers that answer every request alike but
    for the status, 200 for one and 302 for the other, with the same
    [Location] header, give different standard outputs: both lines for the
    first, nothing for the second. *)
Lemma output_depends_on_status :
  Wire.differ_only_in_status_and_body
    (Mock.server_with_location 200) (Mock.server_with_location 302) /\
  stdout (snd (main (Wire.transport_of (Mock.server_with_location 200)))) =
    ("Add one document with 65,535 unique fields" ++ newline ++
     "Add a second document with a new unique field" ++ newline)%string /\
  stdout (snd (main (Wire.transport_of (Mock.server_with_location 302)))) =
    EmptyString /\
  stdout (snd (main (Wire.transport_of (Mock.server_with_location 200)))) <>
  stdout (snd (main (Wire.transport_of (Mock.server_with_location 302)))).
Proof.
  pose proof (main_both_respond _ _ _
                (location_200_returns 0 (request_for doc1))
                (location_200_returns 1 (request_for doc2))) as E1.
  pose proof (main_first_faults _ _
                (location_302_raises 0 (request_for doc1))) as E2.
  split; [intros k rq h; split; reflexivity|].
  rewrite E1, E2. cbn [snd]. rewrite stdout_both, stdout_one.
  split; [reflexivity|]. split; [reflexivity|].
  exact two_lines_not_empty.
Qed.

(** C4, as amended.  Two runs in which the calls to [requests.post] end
    alike, both returning a response, of whatever status and body, or both
    raising the same exception, produce the same standard output, indeed the
    same result and the same trace; and when the calls return, each request
    is followed by exactly one printed line. *)
Theorem output_independent_of_returned_responses (ep1 ep2 : Wire.endpoint) :
  differ_only_in_responses (Wire.transport_of ep1) (Wire.transport_of ep2) ->
  stdout (snd (main (Wire.transport_of ep1))) =
  stdout (snd (main (Wire.transport_of ep2))) /\
  main (Wire.transport_of ep1) = main (Wire.transport_of ep2) /\
  (always_responds (Wire.transport_of ep1) ->
     post_print_pairs (snd (main (Wire.transport_of ep1))) = true /\
     post_print_pairs (snd (main (Wire.transport_of ep2))) = true).
Proof.
  intros D.
  exact (like_calls_like_runs (Wire.transport_of ep1) (Wire.transport_of ep2) D).
Qed.

Lemma output_independent_of_returned_responses_witness :
  differ_only_in_responses
    (Wire.transport_of (Mock.server (fun _ => 202)))
    (Wire.transport_of
       (Mock.server (fun k => match k with O => 500 | S _ => 202 end))) /\
  stdout (snd (main (Wire.transport_of (Mock.server (fun _ => 202))))) =
  stdout (snd (main (Wire.transport_of
       (Mock.server (fun k => match k with O => 500 | S _ => 202 end))))).
Proof.
  assert (D : differ_only_in_responses
                (Wire.transport_of (Mock.server (fun _ => 202)))
                (Wire.transport_of
                   (Mock.server
                      (fun k => match k with O => 500 | S _ => 202 end)))).
  { intros k rq.
    rewrite (server_returns (fun _ => 202) k rq eq_refl).
    destruct k as [|k].
    - now rewrite (server_returns
                     (fun k => match k with O => 500 | S _ => 202 end)
                     0 rq eq_refl).
    - now rewrite (server_returns
                     (fun k => match k with O => 500 | S _ => 202 end)
                     (S k) rq eq_refl). }
  split; [exact D|].
  exact (proj1 (output_independent_of_returned_responses _ _ D)).
Defined.

(** *** C6 *)

(** C6, as stated, fails: a POST can get an HTTP answer and the call still
    raise.  Answered with a 302 naming the endpoint itself, the first call
    raises [TooManyRedirects]; answered with a 200 whose body breaks off, it
    raises [ChunkedEncodingError]; either way no line is printed, unlike
    after a success. *)
Lemma answered_call_raises :
  (exists a, Mock.server_with_location 302 0%nat (request_for doc1) 0%nat =
             Wire.Answered a) /\
  fst (main (Wire.transport_of (Mock.server_with_location 302))) =
    Raised TooManyRedirects /\
  printed (snd (main (Wire.transport_of (Mock.server_with_location 302)))) =
    [] /\
  (exists a, Mock.server_breaking_off 0%nat (request_for doc1) 0%nat =
             Wire.Answered a) /\
  fst (main (Wire.transport_of Mock.server_breaking_off)) =
    Raised ChunkedEncodingError /\
  printed (snd (main (Wire.transport_of Mock.server_breaking_off))) = [] /\
  printed (snd (main (Wire.transport_of (Mock.server (fun _ => 202))))) =
    ["Add one document with 65,535 unique fields";
     "Add a second document with a new unique field"].
Proof.
  pose proof (main_first_faults _ _
                (location_302_raises 0 (request_for doc1))) as E1.
  pose proof (main_first_faults _ _
                (breaking_off_raises 0 (request_for doc1))) as E2.
  pose proof (main_both_respond _ _ _
                (server_returns (fun _ => 202) 0 (request_for doc1) eq_refl)
                (server_returns (fun _ => 202) 1 (request_for doc2) eq_refl))
    as E3.
  rewrite E1, E2, E3.
  split; [eexists; reflexivity|].
  split; [reflexivity|]. split; [reflexivity|].
  split; [eexists; reflexivity|].
  split; [reflexivity|]. split; reflexivity.
Qed.

(** C6, as amended.  For either send, an exception raised by
    [requests.post], for a failure of the network (connection refused,
    timeout, name resolution) or for an answer the library gives up on (too
    many redirects, a body that fails to read), leaves the script as that
    very exception, with the request issued once: no catch, no retry.  A
    call that returns a response, whatever its status, raises nothing, and
    the run is the same as for any other response returned: same lines, same
    requests.  A failure of the network on the POST is such an exception,
    and an answer that is not a followed redirect and whose body reads
    intact, a 400 as well as a 200, is such a return. *)
Theorem exceptions_propagate (ep : Wire.endpoint) :
  (forall e : fault,
     Wire.transport_of ep 0%nat (request_for doc1) = Faulted e ->
     fst (main (Wire.transport_of ep)) = Raised e /\
     posts (snd (main (Wire.transport_of ep))) = [request_for doc1]) /\
  (forall (r : response) (e : fault),
     Wire.transport_of ep 0%nat (request_for doc1) = Responded r ->
     Wire.transport_of ep 1%nat (request_for doc2) = Faulted e ->
     fst (main (Wire.transport_of ep)) = Raised e /\
     posts (snd (main (Wire.transport_of ep))) =
       [request_for doc1; request_for doc2]) /\
  (forall r1 r2 : response,
     Wire.transport_of ep 0%nat (request_for doc1) = Responded r1 ->
     Wire.transport_of ep 1%nat (request_for doc2) = Responded r2 ->
     main (Wire.transport_of ep) =
       (Returned tt,
        [Post (request_for doc1);
         Print "Add one document with 65,535 unique fields";
         Post (request_for doc2);
         Print "Add a second document with a new unique field"])) /\
  (forall (k : nat) (rq : request) (f : Wire.failure),
     ep k rq 0%nat = Wire.Failed f ->
     Wire.transport_of ep k rq = Faulted (Wire.raised_for f)) /\
  (forall (k : nat) (rq : request) (a : Wire.answer),
     ep k rq 0%nat = Wire.Answered a ->
     Wire.followed a = false ->
     Wire.arrival a = Wire.Intact ->
     Wire.transport_of ep k rq =
       Responded {| status_code := Wire.status a;
                    text := Wire.content a |}).
Proof.
  destruct (run_by_call_outcomes (Wire.transport_of ep)) as (H1 & H2 & H3).
  split; [exact H1|]. split; [exact H2|]. split; [exact H3|]. split.
  - intros k rq f H. unfold Wire.transport_of. now apply send_failed.
  - intros k rq a H F I. unfold Wire.transport_of.
    rewrite (send_direct _ a H F). unfold Wire.read_content. now rewrite I.
Qed.

Lemma exceptions_propagate_witness :
  fst (main (Wire.transport_of Mock.server_down)) = Raised ConnectionRefused /\
  fst (main (Wire.transport_of (Mock.server_with_location 302))) =
    Raised TooManyRedirects /\
  main (Wire.transport_of (Mock.server (fun _ => 400))) =
  main (Wire.transport_of (Mock.server (fun _ => 202))).
Proof.
  split; [|split].
  - apply (proj1 (exceptions_propagate Mock.server_down) ConnectionRefused).
    apply down_raises.
  - apply (proj1 (exceptions_propagate (Mock.server_with_location 302))
             TooManyRedirects).
    apply location_302_raises.
  - rewrite (proj1 (proj2 (proj2
               (exceptions_propagate (Mock.server (fun _ => 400)))))
               _ _
               (server_returns (fun _ => 400) 0 (request_for doc1) eq_refl)
               (server_returns (fun _ => 400) 1 (request_for doc2) eq_refl)).
    rewrite (proj1 (proj2 (proj2
               (exceptions_propagate (Mock.server (fun _ => 202)))))
               _ _
               (server_returns (fun _ => 202) 0 (request_for doc1) eq_refl)
               (server_returns (fun _ => 202) 1 (request_for doc2) eq_refl)).
    reflexivity.
Defined.

End WireClaims.

(** ** The serialized body *)

Section BodyClaims.

Import World Repro.

Lemma escape_char_plain (c : ascii) :
  Json.is_plain c = true -> Json.escape_char c = String c EmptyString.
Proof.
  unfold Json.is_plain, Json.escape_char. cbv zeta.
  generalize (nat_of_ascii c) as n. intros n H.
  apply andb_true_iff in H. destruct H as [H H92].
  apply andb_true_iff in H. destruct H as [H H34].
  apply andb_true_iff in H. destruct H as [H32 H126].
  apply negb_true_iff in H92, H34.
  rewrite H34, H92, H32, H126.
  apply Nat.leb_le in H32.
  destruct (Nat.eqb_spec n 8); [lia|].
  destruct (Nat.eqb_spec n 12); [lia|].
  destruct (Nat.eqb_spec n 10); [lia|].
  destruct (Nat.eqb_spec n 13); [lia|].
  destruct (Nat.eqb_spec n 9); [lia|].
  reflexivity.
Qed.

Lemma escape_plain (s : string) :
  Json.all_plain s = true -> Json.escape s = s.
Proof.
  induction s as [|c s IH]; simpl; intros H.
  - reflexivity.
  - apply andb_true_iff in H. destruct H as [Hc Hs].
    now rewrite (escape_char_plain c Hc), (IH Hs).
Qed.

Lemma all_plain_app (s t : string) :
  Json.all_plain (s ++ t) = (Json.all_plain s && Json.all_plain t)%bool.
Proof.
  induction s as [|c s IH]; simpl.
  - reflexivity.
  - now rewrite IH, andb_assoc.
Qed.

Lemma all_plain_uint (d : Decimal.uint) :
  Json.all_plain (NilEmpty.string_of_uint d) = true.
Proof. induction d; simpl; auto. Qed.

Lemma all_plain_str (i : Z) : Json.all_plain (Py.str i) = true.
Proof.
  unfold Py.str. destruct (Z.to_int i) as [d|d]; simpl.
  - apply all_plain_uint.
  - apply all_plain_uint.
Qed.

Lemma quote_plain (s : string) :
  Json.all_plain s = true -> Json.quote s = quoted s.
Proof. intros H. unfold Json.quote, quoted. now rewrite (escape_plain s H). Qed.

Lemma field_key_plain (i : Z) : Json.all_plain (field_key i) = true.
Proof.
  unfold field_key. rewrite all_plain_app, all_plain_str. reflexivity.
Qed.

Lemma field_value_plain (i : Z) : Json.all_plain (field_value i) = true.
Proof.
  unfold field_value. rewrite all_plain_app, all_plain_str. reflexivity.
Qed.

Lemma member_dumps (i : Z) :
  (Json.quote (field_key i) ++ ": " ++
   Json.dumps (Json.of_value (Py.VStr (field_value i))))%string
  = member_text i.
Proof.
  change (Json.dumps (Json.of_value (Py.VStr (field_value i))))
    with (Json.quote (field_value i)).
  rewrite (quote_plain _ (field_key_plain i)).
  rewrite (quote_plain _ (field_value_plain i)).
  reflexivity.
Qed.

Lemma members_text (l : list Z) :
  map (fun kv : string * Json.t =>
         (Json.quote (fst kv) ++ ": " ++ Json.dumps (snd kv))%string)
    (map (fun kv : string * Py.value => (fst kv, Json.of_value (snd kv)))
       (("id", Py.VInt 1) :: map generated_entry l))
  = (quoted "id" ++ ": 1")%string :: map member_text l.
Proof.
  cbn [map]. f_equal.
  rewrite !map_map. apply map_ext. intros i. exact (member_dumps i).
Qed.

Lemma doc1_loop_body (n : Z) :
  Json.dumps (Json.of_batch [doc1_loop n]) = doc1_body_text n.
Proof.
  rewrite doc1_loop_items. unfold doc1_body_text.
  change (Json.dumps (Json.of_batch
            [("id", Py.VInt 1) :: map generated_entry (Py.range n)]))
    with ("[" ++ ("{" ++ String.concat ", "
            (map (fun kv : string * Json.t =>
                    (Json.quote (fst kv) ++ ": " ++ Json.dumps (snd kv))%string)
               (map (fun kv : string * Py.value =>
                       (fst kv, Json.of_value (snd kv)))
                  (("id", Py.VInt 1) :: map generated_entry (Py.range n))))
            ++ "}") ++ "]")%string.
  now rewrite members_text.
Qed.

Lemma doc1_loop_nth (n i : Z) :
  0 <= i < n ->
  nth_error (doc1_loop n) (S (Z.to_nat i)) = Some (generated_entry i).
Proof.
  intros Hi. rewrite doc1_loop_items. cbn [nth_error].
  rewrite nth_error_map, (range_nth n i Hi). reflexivity.
Qed.

Lemma first_post (net : transport) :
  hd_error (posts (snd (main net))) = Some (request_for doc1).
Proof. destruct (posts_of_run net) as [E|E]; rewrite E; reflexivity. Qed.

(** C9.  The first document lists ["id"] first and then the generated
    entries by increasing index: position [i + 1] holds [field_i]; the body
    of the first request lists the members in that same order. *)
Theorem doc1_order :
  doc1 =
    ("id", Py.VInt 1)
    :: map (fun i : Z => ("field_" ++ Py.str i, Py.VStr ("value_" ++ Py.str i)))
         (Py.range 65535) /\
  nth_error doc1 0 = Some ("id", Py.VInt 1) /\
  (forall i : Z, 0 <= i < 65535 ->
     nth_error doc1 (S (Z.to_nat i)) =
       Some ("field_" ++ Py.str i, Py.VStr ("value_" ++ Py.str i))) /\
  (forall i : Z, 0 <= i < 65535 ->
     nth_error (Py.range 65535) (Z.to_nat i) = Some i) /\
  body (request_for doc1) = doc1_body_text 65535 /\
  (forall net : transport,
     hd_error (posts (snd (main net))) = Some (request_for doc1)).
Proof.
  split; [exact (doc1_loop_items 65535)|].
  split; [unfold doc1; rewrite doc1_loop_items; reflexivity|].
  split; [intros i Hi; exact (doc1_loop_nth 65535 i Hi)|].
  split; [intros i Hi; exact (range_nth 65535 i Hi)|].
  split; [exact (doc1_loop_body 65535)|].
  exact first_post.
Qed.

End BodyClaims.

(* ------------------------------------------------------------------ *)
(** * Further properties of the script *)

(** ** Dictionary assignment, as the loop body uses it *)

Section DictLaws.

Lemma keys_set_present (d : Py.dict) (k : string) (v : Py.value) :
  Py.contains d k = true -> Py.keys (Py.set d k v) = Py.keys d.
Proof.
  unfold Py.contains.
  induction d as [|[k' v'] d IH]; simpl; [discriminate|].
  destruct (String.eqb_spec k' k) as [->|Hne]; simpl; intros H.
  - reflexivity.
  - f_equal. apply IH. exact H.
Qed.

Lemma contains_false_get (d : Py.dict) (k : string) :
  Py.contains d k = false -> Py.get d k = None.
Proof. unfold Py.contains. now destruct (Py.get d k). Qed.

Lemma contains_true_in (d : Py.dict) (k : string) :
  Py.contains d k = true <-> In k (Py.keys d).
Proof.
  unfold Py.contains. split; intros H.
  - destruct (Py.get d k) eqn:E; [|discriminate].
    apply get_some_in in E. unfold Py.keys.
    apply in_map_iff. now exists (k, v).
  - destruct (Py.get d k) eqn:E; [reflexivity|].
    apply get_none_iff in E. contradiction.
Qed.

(** X1.  Reading after an assignment: the assigned key gives the new value, and
    every other key what it gave before. *)
Theorem get_after_set (d : Py.dict) (k k' : string) (v : Py.value) :
  Py.get (Py.set d k v) k' =
    if String.eqb k k' then Some v else Py.get d k'.
Proof.
  induction d as [|[k0 v0] d IH]; simpl.
  - reflexivity.
  - destruct (String.eqb_spec k0 k) as [->|Hne]; simpl.
    + destruct (String.eqb k k'); reflexivity.
    + rewrite IH.
      destruct (String.eqb_spec k0 k') as [->|Hne'].
      * destruct (String.eqb_spec k k') as [->|_]; [contradiction|reflexivity].
      * reflexivity.
Qed.

(** X2.  An assignment keeps keys unique; on a key already held it changes no key
    and no position, and on a new key it appends one entry at the end. *)
Theorem set_keeps_keys_unique (d : Py.dict) (k : string) (v : Py.value) :
  NoDup (Py.keys d) ->
  NoDup (Py.keys (Py.set d k v)) /\
  (Py.contains d k = true ->
     Py.keys (Py.set d k v) = Py.keys d /\
     List.length (Py.set d k v) = List.length d) /\
  (Py.contains d k = false ->
     Py.set d k v = (d ++ [(k, v)])%list /\
     List.length (Py.set d k v) = S (List.length d)).
Proof.
  intros Hnd.
  assert (Hp : Py.contains d k = true ->
               Py.keys (Py.set d k v) = Py.keys d /\
               List.length (Py.set d k v) = List.length d).
  { intros H. pose proof (keys_set_present d k v H) as E. split; [exact E|].
    apply (f_equal (@List.length string)) in E.
    unfold Py.keys in E. now rewrite !length_map in E. }
  assert (Ha : Py.contains d k = false ->
               Py.set d k v = (d ++ [(k, v)])%list /\
               List.length (Py.set d k v) = S (List.length d)).
  { intros H. pose proof (set_fresh d k v (contains_false_get d k H)) as E.
    split; [exact E|]. rewrite E, length_app. simpl. lia. }
  split; [|split; assumption].
  destruct (Py.contains d k) eqn:C.
  - destruct (Hp eq_refl) as [E _]. now rewrite E.
  - destruct (Ha eq_refl) as [E _]. rewrite E.
    unfold Py.keys. rewrite map_app. simpl.
    apply NoDup_app; [exact Hnd | repeat constructor; intros [] |].
    intros x Hx [<-|[]].
    apply contains_true_in in Hx. congruence.
Qed.

Lemma set_keeps_keys_unique_witness :
  NoDup (Py.keys (Py.set [("id", Py.VInt 1); ("a", Py.VStr "x")] "a" (Py.VStr "y"))).
Proof.
  apply (set_keeps_keys_unique [("id", Py.VInt 1); ("a", Py.VStr "x")] "a").
  repeat constructor; simpl; intuition discriminate.
Defined.

End DictLaws.

(** ** The loop, for any bound *)

Section LoopLaws.

Import Repro.

(** X3.  The loop invariant: after [range(n)] the dictionary is ["id"] followed
    by one entry per index, in index order.  An empty range leaves only
    ["id"], and one more iteration appends exactly one entry at the end. *)
Theorem loop_builds_in_order (n : Z) :
  doc1_loop n =
    ("id", Py.VInt 1)
    :: map (fun i : Z => ("field_" ++ Py.str i, Py.VStr ("value_" ++ Py.str i)))
         (Py.range n) /\
  (n <= 0 -> doc1_loop n = [("id", Py.VInt 1)]) /\
  (0 <= n ->
     doc1_loop (n + 1) =
       List.app (doc1_loop n)
         [("field_" ++ Py.str n, Py.VStr ("value_" ++ Py.str n))]).
Proof.
  split; [exact (doc1_loop_items n)|]. split.
  - intros Hn. rewrite doc1_loop_items, (range_nonpos n Hn). reflexivity.
  - intros Hn. rewrite !doc1_loop_items, (range_succ n Hn), map_app.
    reflexivity.
Qed.

Lemma new_field_not_generated (i : Z) : "new_unique_field" <> field_key i.
Proof. unfold field_key. simpl. discriminate. Qed.

Lemma new_field_fresh (n : Z) :
  Py.get (doc1_loop n) "new_unique_field" = None.
Proof.
  apply get_none_iff. rewrite doc1_loop_items.
  change (~ In "new_unique_field"
            ("id" :: Py.keys (map generated_entry (Py.range n)))).
  rewrite keys_generated. intros [E|E]; [discriminate|].
  apply in_map_iff in E. destruct E as (i & E & _).
  exact (new_field_not_generated i (eq_sym E)).
Qed.

(** X4.  The field of the second document is new: the first document does not
    hold it, whatever the loop bound; ["id"] is the only key the two
    documents share; together they name 65,537 distinct fields. *)
Theorem second_document_adds_a_field :
  (forall n : Z, Py.contains (doc1_loop n) "new_unique_field" = false) /\
  (forall k : string,
     In k (Py.keys doc1) -> In k (Py.keys doc2) -> k = "id") /\
  NoDup (Py.keys doc1 ++ ["new_unique_field"])%list /\
  Z.of_nat (List.length (Py.keys doc1 ++ ["new_unique_field"])%list) = 65537.
Proof.
  split; [|split; [|split]].
  - intros n. unfold Py.contains. now rewrite new_field_fresh.
  - intros k H1 H2.
    change (Py.keys doc2) with ["id"; "new_unique_field"] in H2.
    destruct H2 as [<-|[<-|[]]]; [reflexivity|].
    exfalso. apply (proj1 (get_none_iff doc1 "new_unique_field"));
      [exact (new_field_fresh 65535) | exact H1].
  - apply NoDup_app; [apply doc1_loop_keys_NoDup | repeat constructor; intros [] |].
    intros x Hx [<-|[]].
    apply (proj1 (get_none_iff doc1 "new_unique_field"));
      [exact (new_field_fresh 65535) | exact Hx].
  - rewrite length_app. unfold Py.keys. rewrite length_map.
    rewrite Nat2Z.inj_add. unfold doc1. rewrite (doc1_loop_length 65535); [|lia].
    reflexivity.
Qed.

End LoopLaws.

(** ** The function on any trace, and the module around it *)

Section CallLaws.

Import World Repro.

Lemma posts_app (a b : trace) :
  posts (a ++ b)%list = (posts a ++ posts b)%list.
Proof.
  induction a as [|[rq|s] a IH]; simpl; [reflexivity| |exact IH].
  now rewrite IH.
Qed.

Lemma posts_after_post_print (tr : trace) (rq : request) (s : string) :
  List.length (posts ((tr ++ [Post rq]) ++ [Print s])%list) =
  S (List.length (posts tr)).
Proof. rewrite !posts_app, !length_app. simpl. lia. Qed.

(** The three ways a call can go, started on any trace. *)
Lemma create_documents_cases (net : transport) (tr : trace) :
  match net (List.length (posts tr)) (request_for doc1) with
  | Faulted e =>
      create_documents net tr =
        (Raised e, (tr ++ [Post (request_for doc1)])%list)
  | Responded _ =>
      match net (S (List.length (posts tr))) (request_for doc2) with
      | Faulted e =>
          create_documents net tr =
            (Raised e,
             (tr ++ [Post (request_for doc1); Print LINE1;
                     Post (request_for doc2)])%list)
      | Responded _ =>
          create_documents net tr =
            (Returned tt,
             (tr ++ [Post (request_for doc1); Print LINE1;
                     Post (request_for doc2); Print LINE2])%list)
      end
  end.
Proof.
  unfold create_documents, request_for.
  rewrite url_is_endpoint.
  change HEADERS with [("X-Meili-API-Key", "masterKey")].
  generalize doc1 as d1, doc2 as d2. intros d1 d2.
  cbv [bind requests_post print].
  destruct (net (List.length (posts tr)) _) as [r1|e1]; [|reflexivity].
  rewrite posts_after_post_print.
  destruct (net (S (List.length (posts tr))) _) as [r2|e2];
    rewrite <- !app_assoc; reflexivity.
Qed.

(** X5.  A call started after earlier events leaves them in place and appends
    what a fresh run does against the transport as it stands after the calls
    already made; its result is that of the fresh run. *)
Theorem create_documents_appends (net : transport) (tr : trace) :
  create_documents net tr =
    (fst (main (shifted (List.length (posts tr)) net)),
     (tr ++ snd (main (shifted (List.length (posts tr)) net)))%list).
Proof.
  pose proof (create_documents_cases net tr) as C.
  pose proof (main_cases (shifted (List.length (posts tr)) net)) as M.
  change (shifted (List.length (posts tr)) net 0%nat (request_for doc1))
    with (net (List.length (posts tr)) (request_for doc1)) in M.
  change (shifted (List.length (posts tr)) net 1%nat (request_for doc2))
    with (net (S (List.length (posts tr))) (request_for doc2)) in M.
  destruct (net (List.length (posts tr)) (request_for doc1)) as [r1|e1].
  - destruct (net (S (List.length (posts tr))) (request_for doc2)) as [r2|e2];
      rewrite C, M; reflexivity.
  - rewrite C, M. reflexivity.
Qed.

(** X6.  A run consults the transport for the first call and, if that one is
    answered, for the second, and for nothing else: transports that agree
    on these two calls give the same result and the same trace. *)
Theorem run_depends_on_two_answers (net1 net2 : transport) :
  net1 0%nat (request_for doc1) = net2 0%nat (request_for doc1) ->
  net1 1%nat (request_for doc2) = net2 1%nat (request_for doc2) ->
  main net1 = main net2.
Proof.
  intros H0 H1.
  pose proof (main_cases net1) as C1.
  pose proof (main_cases net2) as C2.
  rewrite H0, H1 in C1.
  destruct (net2 0%nat (request_for doc1)) as [r1|e1].
  - destruct (net2 1%nat (request_for doc2)) as [r2|e2];
      now rewrite C1, C2.
  - now rewrite C1, C2.
Qed.

Lemma run_depends_on_two_answers_witness :
  main Mock.accepting = main Mock.accepting_twice.
Proof.
  apply (run_depends_on_two_answers Mock.accepting Mock.accepting_twice);
    reflexivity.
Defined.

(** X7.  Whatever the transport does: one or two requests are issued, never
    more; a line is printed only after its request, so the lines never
    outnumber the requests and trail them by at most one; the lines are a
    prefix of the two confirmation lines; and the run returns normally
    exactly when both lines were printed. *)
Theorem run_invariants (net : transport) :
  (1 <= List.length (posts (snd (main net))) <= 2)%nat /\
  (List.length (printed (snd (main net)))
     <= List.length (posts (snd (main net)))
     <= S (List.length (printed (snd (main net)))))%nat /\
  (exists rest : list string,
     [LINE1; LINE2] = (printed (snd (main net)) ++ rest)%list) /\
  (fst (main net) = Returned tt <->
   printed (snd (main net)) = [LINE1; LINE2]) /\
  (fst (main net) = Returned tt <->
   List.length (printed (snd (main net))) =
   List.length (posts (snd (main net)))).
Proof.
  pose proof (main_cases net) as C.
  destruct (net 0%nat (request_for doc1)) as [r1|e1].
  - destruct (net 1%nat (request_for doc2)) as [r2|e2]; rewrite C;
      cbn [fst snd posts printed List.length].
    + split; [lia|]. split; [lia|]. split; [now exists []|].
      split; split; reflexivity.
    + split; [lia|]. split; [lia|]. split; [now exists [LINE2]|].
      split; split; discriminate.
  - rewrite C. cbn [fst snd posts printed List.length].
    split; [lia|]. split; [lia|]. split; [now exists [LINE1; LINE2]|].
    split; split; discriminate.
Qed.



End CallLaws.

(** ** Bodies that need no escaping *)

Section PlainBodies.

Import World Repro.

Lemma plain_member (kv : string * Py.value) :
  plain_entry kv = true ->
  (Json.quote (fst kv) ++ ": " ++ Json.dumps (Json.of_value (snd kv)))%string
  = entry_text kv.
Proof.
  destruct kv as [k [z|s]]; unfold plain_entry, entry_text; cbn [fst snd];
    intros H; apply andb_true_iff in H; destruct H as [Hk Hv].
  - now rewrite (quote_plain k Hk).
  - change (Json.dumps (Json.of_value (Py.VStr s))) with (Json.quote s).
    now rewrite (quote_plain k Hk), (quote_plain s Hv).
Qed.

Lemma plain_members (d : Py.dict) :
  forallb plain_entry d = true ->
  map (fun kv : string * Json.t =>
         (Json.quote (fst kv) ++ ": " ++ Json.dumps (snd kv))%string)
    (map (fun kv : string * Py.value => (fst kv, Json.of_value (snd kv))) d)
  = map entry_text d.
Proof.
  intros H. rewrite map_map. apply map_ext_in. intros kv Hin.
  cbn [fst snd]. apply plain_member.
  exact (proj1 (forallb_forall plain_entry d) H kv Hin).
Qed.

Lemma plain_body (d : Py.dict) :
  forallb plain_entry d = true ->
  body (request_for d) =
    ("[" ++ ("{" ++ String.concat ", " (map entry_text d) ++ "}") ++ "]")%string.
Proof.
  intros H.
  change (body (request_for d))
    with ("[" ++ ("{" ++ String.concat ", "
            (map (fun kv : string * Json.t =>
                    (Json.quote (fst kv) ++ ": " ++ Json.dumps (snd kv))%string)
               (map (fun kv : string * Py.value =>
                       (fst kv, Json.of_value (snd kv))) d))
            ++ "}") ++ "]")%string.
  now rewrite (plain_members d H).
Qed.

Lemma doc1_loop_plain (n : Z) : forallb plain_entry (doc1_loop n) = true.
Proof.
  apply forallb_forall. intros [k v] Hin.
  apply doc1_loop_in in Hin.
  destruct Hin as [[-> ->]|(i & _ & -> & ->)].
  - reflexivity.
  - unfold plain_entry. cbn [fst snd].
    now rewrite field_key_plain, field_value_plain.
Qed.

(** X10.  A document whose keys and texts hold only printable ASCII other than the
    double quote and the backslash is sent verbatim: the body is its members
    in order, each key and text between quotes, numbers in decimal, joined
    by a comma and a space inside braces and brackets. *)
Theorem plain_document_body (d : Py.dict) :
  forallb plain_entry d = true ->
  body (request_for d) =
    ("[" ++ ("{" ++ String.concat ", " (map entry_text d) ++ "}") ++ "]")%string.
Proof. intros H. exact (plain_body d H). Qed.

Lemma plain_document_body_witness :
  body (request_for doc2) =
    ("[{" ++ quoted "id" ++ ": 2, " ++
     quoted "new_unique_field" ++ ": " ++ quoted "new_value" ++ "}]")%string.
Proof.
  rewrite (plain_document_body doc2); reflexivity.
Defined.

(** X11.  Neither document holds a character that JSON escapes, whatever the loop
    bound, so both bodies carry every field name and value verbatim; the
    second body is the one-object array with ["id"] 2 and the new field. *)
Theorem documents_need_no_escaping :
  (forall n : Z, forallb plain_entry (doc1_loop n) = true) /\
  forallb plain_entry doc1 = true /\
  forallb plain_entry doc2 = true /\
  body (request_for doc1) =
    ("[" ++ ("{" ++ String.concat ", " (map entry_text doc1) ++ "}") ++ "]")%string /\
  body (request_for doc2) =
    ("[{" ++ quoted "id" ++ ": 2, " ++
     quoted "new_unique_field" ++ ": " ++ quoted "new_value" ++ "}]")%string.
Proof.
  split; [exact doc1_loop_plain|].
  split; [exact (doc1_loop_plain 65535)|].
  split; [reflexivity|].
  split; [exact (plain_body doc1 (doc1_loop_plain 65535))|].
  rewrite (plain_body doc2); reflexivity.
Qed.

End PlainBodies.
